(** * Procurement agent: the deterministic core

    A shallow embedding of the Python modules [agent/memory.py],
    [agent/tools.py], [agent/state.py] and the two tool functions of
    [agent/agent.py], followed by the properties of the specification
    that concern them.

    Conventions of the embedding.
    - A Python [dict] with string keys is a [gmap string _]; equality of
      two such maps is Python's [==] on dicts (insertion order is not
      observable through it).
    - A Python [int] is a [Z], a [str] is a [string].
    - The two JSON files under [data/] are not part of the sources; the
      file system is a record holding, for each file, the document that
      [json.load] decodes from it, or [None] when [open]/[json.load]
      raises.  [json.dump] followed by [json.load] is the identity on
      the values modelled here.
    - A function that reads or writes a file, or that can raise, lives
      in the monad [io]: state passing over [files] with an exception
      result.
    - [str.lower] is a parameter [lower] of the development: nothing
      below depends on how it treats a particular character, except
      where a hypothesis says so. *)

From Stdlib Require Import ZArith List Ascii String DecimalString.
From stdpp Require Import gmap strings list fin_maps.

Open Scope Z_scope.

(** ** Values *)

(** The values held by the dictionaries of the program: integers,
    strings, lists of strings and (for the confirmation returned by
    [store_site_rules]) a nested dictionary. *)
#[warnings="-register-all"]
Inductive value : Type :=
  | VInt (n : Z)
  | VStr (s : string)
  | VList (l : list string)
  | VDict (d : gmap string value).

(** A catalog entry [{"name": ..., "price": ...}]. *)
Record vendor : Type := Vendor { name : string; price : Z }.

(** ** Exceptions and the [io] monad *)

Inductive exn : Type :=
  | FileError              (* open() or json.load() failed *)
  | KeyError (key : string)
  | TypeError.

Inductive result (A : Type) : Type :=
  | Ok (a : A)
  | Raise (e : exn).
Arguments Ok {A} a.
Arguments Raise {A} e.

(** [memory_json] is the decoded content of [data/memory.json]: a map
    from site names to rule dictionaries.  [mock_vendors_json] is the
    decoded content of [data/mock_vendors.json]: the ordered catalog. *)
Record files : Type := Files {
  memory_json : option (gmap string (gmap string value));
  mock_vendors_json : option (list vendor)
}.

Definition io (A : Type) : Type := files -> result A * files.

Definition lift {A} (r : result A) : io A := fun fs => (r, fs).

#[global] Instance io_ret : MRet io := fun A a fs => (Ok a, fs).

#[global] Instance io_bind : MBind io := fun A B k m fs =>
  match m fs with
  | (Ok a, fs') => k a fs'
  | (Raise e, fs') => (Raise e, fs')
  end.

(** [d[key]]: raises [KeyError] when the key is absent. *)
Definition getitem {A} (d : gmap string A) (key : string) : result A :=
  match d !! key with
  | Some v => Ok v
  | None => Raise (KeyError key)
  end.

(** [d.get(key, dflt)]. *)
Definition get_default {A} (d : gmap string A) (key : string) (dflt : A) : A :=
  match d !! key with
  | Some v => v
  | None => dflt
  end.

(** ** Formatting: [f"{n:,}"] *)

(** Commas are inserted every three digits, counting from the least
    significant one; the argument is the reversed digit list. *)
Fixpoint group_thousands (rev_digits : list ascii) : list ascii :=
  match rev_digits with
  | a :: b :: c :: ((_ :: _) as more) =>
      a :: b :: c :: ","%char :: group_thousands more
  | _ => rev_digits
  end.

Definition format_thousands (n : Z) : string :=
  let digits := list_ascii_of_string (NilZero.string_of_uint (N.to_uint (Z.abs_N n))) in
  let body := string_of_list_ascii (rev (group_thousands (rev digits))) in
  if n <? 0 then String "-"%char body else body.

(** ** memory.py *)

Definition _load_memory : io (gmap string (gmap string value)) :=
  fun fs =>
    match memory_json fs with
    | Some data => (Ok data, fs)
    | None => (Raise FileError, fs)
    end.

Definition _save_memory (data : gmap string (gmap string value)) : io unit :=
  fun fs =>
    (Ok tt, {| memory_json := Some data; mock_vendors_json := mock_vendors_json fs |}).

Definition write_site_rules (site : string) (rules : gmap string value)
  : io (gmap string value) :=
  memory ← _load_memory;
  let memory := <[site := rules]> memory in
  _save_memory memory;;
  lift (getitem memory site).

Definition read_site_rules (site : string) : io (option (gmap string value)) :=
  memory ← _load_memory;
  mret (memory !! site).

(** ** tools.py *)

Definition load_vendors : io (list vendor) :=
  fun fs =>
    match mock_vendors_json fs with
    | Some vendors => (Ok vendors, fs)
    | None => (Raise FileError, fs)
    end.

(** [min(first :: rest, key=key)]: the running best is replaced only by
    an element whose key is strictly smaller. *)
Definition min_by_key {A} (key : A -> Z) (first : A) (rest : list A) : A :=
  fold_left (fun best x => if key x <? key best then x else best) rest first.

Definition select_cheapest (vendors : list vendor) : option vendor :=
  match vendors with
  | [] => None
  | first :: rest => Some (min_by_key price first rest)
  end.

(** What [for b in banned] iterates over: the elements of a list, the
    one-character substrings of a string, the keys of a dictionary (in
    an order that the membership test of [filter_vendors] does not
    observe); an integer is not iterable. *)
Definition iter_strings (banned : value) : result (list string) :=
  match banned with
  | VList l => Ok l
  | VStr s => Ok (map (fun c => String c EmptyString) (list_ascii_of_string s))
  | VDict d => Ok (map fst (map_to_list d))
  | VInt _ => Raise TypeError
  end.

(** The result dictionary of [evaluate_vendors], which has fixed keys. *)
Record evaluation : Type := Evaluation {
  all_vendors : list vendor;
  valid_vendors : list vendor;
  selected : option vendor
}.

Section Lower.

(** [str.lower]. *)
Variable lower : string -> string.

Definition filter_vendors (vendors : list vendor) (banned : list string)
  : list vendor :=
  let banned_lower := map lower banned in
  filter (fun v => lower (name v) ∉ banned_lower) vendors.

Definition evaluate_vendors (banned_vendors : value) : io evaluation :=
  all_vendors ← load_vendors;
  banned ← lift (iter_strings banned_vendors);
  let valid := filter_vendors all_vendors banned in
  let cheapest := select_cheapest valid in
  mret {| all_vendors := all_vendors;
         valid_vendors := valid;
         selected := cheapest |}.

End Lower.

(** ** state.py *)

Definition pause_for_approval (site vendor : string) (cost limit : Z)
  : gmap string value :=
  {[ "status" := VStr "AWAITING_APPROVAL";
     "site" := VStr site;
     "selected_vendor" := VStr vendor;
     "amount" := VInt cost;
     "approval_limit" := VInt limit;
     "reason" := VStr ("Cost ₹" +:+ format_thousands cost +:+
                       " exceeds site approval limit of ₹" +:+
                       format_thousands limit) ]}.

Definition approve (paused_state : gmap string value) : gmap string value :=
  <["status" := VStr "APPROVED"]> paused_state.

(** [reason = None] is the call that leaves the default in place. *)
Definition reject (paused_state : gmap string value) (reason : option string)
  : gmap string value :=
  let reason := default "Rejected by manager" reason in
  <["rejection_reason" := VStr reason]>
    (<["status" := VStr "REJECTED"]> paused_state).

(** ** agent.py *)

Definition store_site_rules (site : string) (approval_limit : Z)
    (banned_vendors : list string) : io (gmap string value) :=
  let rules : gmap string value :=
    {[ "approval_limit" := VInt approval_limit;
       "banned_vendors" := VList banned_vendors ]} in
  stored ← write_site_rules site rules;
  mret {[ "status" := VStr "RULES_STORED";
          "site" := VStr site;
          "rules" := VDict stored ]}.

(** Step 3 of [process_procurement] (from [total_cost = selected["price"]]
    to the end of the function), the approval logic.  The comparison
    [total_cost <= approval_limit] raises [TypeError] unless the stored
    limit is an integer. *)
Definition approval_gate (site item : string) (quantity : Z)
    (selected : vendor) (approval_limit : value) : result (gmap string value) :=
  let total_cost := price selected in
  match approval_limit with
  | VInt limit =>
      if total_cost <=? limit then
        Ok {[ "status" := VStr "APPROVED";
              "site" := VStr site;
              "item" := VStr item;
              "quantity" := VInt quantity;
              "selected_vendor" := VStr (name selected);
              "total_cost" := VInt total_cost;
              "approval_limit" := VInt limit;
              "reason" := VStr ("Cost ₹" +:+ format_thousands total_cost +:+
                                " is within approval limit of ₹" +:+
                                format_thousands limit) ]}
      else
        Ok (pause_for_approval site (name selected) total_cost limit)
  | _ => Raise TypeError
  end.

Definition process_procurement (lower : string -> string)
    (site item : string) (quantity : Z) : io (gmap string value) :=
  rules ← read_site_rules site;
  match rules with
  | None =>
      mret {[ "status" := VStr "ERROR";
              "reason" := VStr ("No rules found for site '" +:+ site +:+
                                "'. Please set up site rules first.") ]}
  | Some rules =>
      approval_limit ← lift (getitem rules "approval_limit");
      let banned_vendors := get_default rules "banned_vendors" (VList []) in
      result ← evaluate_vendors lower banned_vendors;
      match selected result with
      | None =>
          mret {[ "status" := VStr "REJECTED";
                  "reason" := VStr "All vendors are banned. No valid vendor available.";
                  "banned_vendors" := banned_vendors ]}
      | Some selected =>
          lift (approval_gate site item quantity selected approval_limit)
      end
  end.

(** ** Definitions used to state the properties *)

(** [str.lower] on ASCII text: [A]..[Z] go to [a]..[z], every other
    character stays. *)
Definition ascii_lower_char (c : ascii) : ascii :=
  let n := nat_of_ascii c in
  if ((65 <=? n) && (n <=? 90))%nat then ascii_of_nat (n + 32) else c.

Fixpoint ascii_lower (s : string) : string :=
  match s with
  | EmptyString => EmptyString
  | String c rest => String (ascii_lower_char c) (ascii_lower rest)
  end.

Fixpoint is_ascii (s : string) : bool :=
  match s with
  | EmptyString => true
  | String c rest => (nat_of_ascii c <? 128)%nat && is_ascii rest
  end.

(** The filter of the specification, in its words: walk the vendors in
    order and keep one exactly when its name matches no banned entry,
    two strings matching when their lower-case forms are equal. *)
Definition case_insensitive_match (lower : string -> string) (a b : string) : bool :=
  String.eqb (lower a) (lower b).

Fixpoint not_banned_subsequence (lower : string -> string)
    (vendors : list vendor) (banned : list string) : list vendor :=
  match vendors with
  | [] => []
  | v :: rest =>
      if existsb (case_insensitive_match lower (name v)) banned
      then not_banned_subsequence lower rest banned
      else v :: not_banned_subsequence lower rest banned
  end.

(** A sequence of calls [write_site_rules(site_i, rules_i)]. *)
Fixpoint write_all (writes : list (string * gmap string value)) : io unit :=
  match writes with
  | [] => mret tt
  | (site, rules) :: rest => write_site_rules site rules;; write_all rest
  end.

(** A decision with the two reporting fields of the order removed. *)
Definition without_order (r : result (gmap string value)) : result (gmap string value) :=
  match r with
  | Ok d => Ok (delete "item" (delete "quantity" d))
  | Raise e => Raise e
  end.

(** The rules dictionary built by [store_site_rules]. *)
Definition site_rules (approval_limit : Z) (banned_vendors : list string)
  : gmap string value :=
  {[ "approval_limit" := VInt approval_limit;
     "banned_vendors" := VList banned_vendors ]}.

(** The catalog and the store of the scenarios of the specification. *)
Definition demo_catalog : list vendor :=
  [ Vendor "UltraTech" 45000; Vendor "BadRock" 38000; Vendor "ACC" 42000 ].

Definition demo_files (approval_limit : Z) (banned_vendors : list string) : files :=
  {| memory_json := Some {[ "Pune" := site_rules approval_limit banned_vendors ]};
     mock_vendors_json := Some demo_catalog |}.

(** * Properties *)

(** ** The [io] monad *)

Lemma bind_ok {A B} (m : io A) (k : A -> io B) fs a fs' :
  m fs = (Ok a, fs') -> (m ≫= k) fs = k a fs'.
Proof. intros E. unfold mbind, io_bind. now rewrite E. Qed.

Lemma bind_raise {A B} (m : io A) (k : A -> io B) fs e fs' :
  m fs = (Raise e, fs') -> (m ≫= k) fs = (Raise e, fs').
Proof. intros E. unfold mbind, io_bind. now rewrite E. Qed.

(** ** tools.py: selection *)

Section MinByKey.

Context {A : Type} (key : A -> Z).

(** The invariant of the scan: the running best sits somewhere in the
    part already visited, strictly below everything before it and at
    most equal to everything after it. *)
Lemma min_by_key_scan (rest pre post : list A) (best : A) :
  Forall (fun w => key best < key w) pre ->
  Forall (fun w => key best <= key w) post ->
  exists pre' post',
    pre ++ best :: post ++ rest = pre' ++ min_by_key key best rest :: post'
    /\ Forall (fun w => key (min_by_key key best rest) < key w) pre'
    /\ Forall (fun w => key (min_by_key key best rest) <= key w) post'.
Proof.
  revert pre post best.
  induction rest as [|x rest IH]; intros pre post best Hpre Hpost.
  - exists pre, post. rewrite app_nil_r. auto.
  - unfold min_by_key in *. cbn [fold_left].
    destruct (Z.ltb_spec (key x) (key best)) as [Hlt|Hge].
    + destruct (IH (pre ++ best :: post) [] x) as (pre' & post' & Heq & H1 & H2).
      * apply Forall_app. split.
        -- eapply Forall_impl; [exact Hpre|]. cbn. intros; lia.
        -- constructor; [lia|].
           eapply Forall_impl; [exact Hpost|]. cbn. intros; lia.
      * constructor.
      * exists pre', post'. split; [|auto].
        rewrite <- Heq. now rewrite <- app_assoc.
    + destruct (IH pre (post ++ [x]) best) as (pre' & post' & Heq & H1 & H2).
      * exact Hpre.
      * apply Forall_app. split; [exact Hpost|]. constructor; [lia|constructor].
      * exists pre', post'. split; [|auto].
        rewrite <- Heq. now rewrite <- app_assoc.
Qed.

End MinByKey.

(** C2.  [select_cheapest] on the empty list is [None] (the "none"
    value; the function is total, so nothing is raised).  On a non-empty
    list it returns a vendor [c] of the list, at a position such that
    every vendor listed before it is strictly more expensive and every
    vendor listed after it is at least as expensive: [c] is a cheapest
    vendor, and the earliest-listed one among those of the same price. *)
Theorem select_cheapest_earliest_minimum :
  select_cheapest [] = None
  /\ forall (first : vendor) (rest : list vendor),
       exists c pre post,
         select_cheapest (first :: rest) = Some c
         /\ first :: rest = pre ++ c :: post
         /\ Forall (fun w => price c < price w) pre
         /\ Forall (fun w => price c <= price w) post
         /\ c ∈ first :: rest
         /\ (forall w, w ∈ first :: rest -> price c <= price w).
Proof.
  split; [reflexivity|].
  intros first rest.
  destruct (min_by_key_scan price rest [] [] first) as (pre & post & Heq & H1 & H2);
    [constructor|constructor|].
  cbn [app] in Heq.
  exists (min_by_key price first rest), pre, post.
  split; [reflexivity|]. split; [exact Heq|]. split; [exact H1|]. split; [exact H2|].
  rewrite Heq. split.
  - apply elem_of_app. right. left.
  - intros w Hw. apply elem_of_app in Hw as [Hw|Hw].
    + rewrite Forall_forall in H1. apply H1 in Hw. lia.
    + apply elem_of_cons in Hw as [->|Hw]; [lia|].
      rewrite Forall_forall in H2. now apply H2.
Qed.

(** ** tools.py: filtering *)

Section Filter.

Variable lower : string -> string.

Lemma case_insensitive_match_banned (n : string) (banned : list string) :
  existsb (case_insensitive_match lower n) banned = true
  <-> lower n ∈ map lower banned.
Proof.
  induction banned as [|b banned IH]; cbn [existsb map].
  - split; [discriminate|]. intros H. inversion H.
  - rewrite orb_true_iff, elem_of_cons, IH.
    unfold case_insensitive_match. now rewrite String.eqb_eq.
Qed.

Lemma filter_vendors_refines (vendors : list vendor) (banned : list string) :
  filter_vendors lower vendors banned = not_banned_subsequence lower vendors banned.
Proof.
  unfold filter_vendors. cbn zeta.
  induction vendors as [|v vendors IH]; [reflexivity|].
  cbn [not_banned_subsequence]. rewrite filter_cons, IH.
  destruct (existsb (case_insensitive_match lower (name v)) banned) eqn:E.
  - apply case_insensitive_match_banned in E.
    destruct (decide (lower (name v) ∉ map lower banned)); [contradiction|reflexivity].
  - destruct (decide (lower (name v) ∉ map lower banned)) as [|n]; [reflexivity|].
    exfalso. apply n. intros Hin.
    apply case_insensitive_match_banned in Hin. congruence.
Qed.

Lemma filter_vendors_elem (vendors : list vendor) (banned : list string) (v : vendor) :
  v ∈ filter_vendors lower vendors banned
  <-> v ∈ vendors /\ forall b, b ∈ banned -> lower (name v) <> lower b.
Proof.
  unfold filter_vendors. cbn zeta. rewrite list_elem_of_filter.
  rewrite list_elem_of_fmap. split.
  - intros [Hn Hv]. split; [exact Hv|]. intros b Hb Heq. apply Hn. eauto.
  - intros [Hv Hn]. split; [|exact Hv]. intros (b & Heq & Hb). eapply Hn; eauto.
Qed.

(** C7.  Filtering an already filtered list with the same banned list
    changes nothing. *)
Theorem filter_vendors_idempotent (vendors : list vendor) (banned : list string) :
  filter_vendors lower (filter_vendors lower vendors banned) banned
  = filter_vendors lower vendors banned.
Proof.
  unfold filter_vendors. cbn zeta.
  induction vendors as [|v vendors IH]; [reflexivity|].
  rewrite filter_cons.
  destruct (decide (lower (name v) ∉ map lower banned)) as [Hv|Hv].
  - rewrite filter_cons_True by exact Hv. now rewrite IH.
  - exact IH.
Qed.

Section AsciiNames.

(** On ASCII text [str.lower] is [ascii_lower]. *)
Hypothesis lower_ascii : forall s, is_ascii s = true -> lower s = ascii_lower s.

(** C5.  [filter_vendors] returns exactly the subsequence of the
    vendors whose name matches no banned entry when both are put in
    lower case: it equals the filter written in the words of the
    specification, it is a subsequence of its input (order kept),
    and a vendor is in it exactly when it is in the input and
    differs, in lower case, from every banned entry.  Both inputs
    are values, so neither is changed.  In particular a banned list
    containing "badrock cements" removes every vendor named
    "BadRock Cements". *)
Theorem filter_vendors_case_insensitive_subsequence
    (vendors : list vendor) (banned : list string) :
  filter_vendors lower vendors banned = not_banned_subsequence lower vendors banned
  /\ filter_vendors lower vendors banned `sublist_of` vendors
  /\ (forall v, v ∈ filter_vendors lower vendors banned
                <-> v ∈ vendors /\ forall b, b ∈ banned -> lower (name v) <> lower b)
  /\ (forall p, "badrock cements" ∈ banned ->
                Vendor "BadRock Cements" p ∉ filter_vendors lower vendors banned).
Proof.
  split; [apply filter_vendors_refines|].
  split; [apply sublist_filter|].
  split; [apply filter_vendors_elem|].
  intros p Hb Hin. apply filter_vendors_elem in Hin as [_ Hn].
  apply (Hn _ Hb). cbn [name].
  rewrite !lower_ascii by reflexivity. reflexivity.
Qed.

End AsciiNames.

End Filter.

Lemma filter_vendors_case_insensitive_subsequence_witness :
  let vendors := [ Vendor "UltraTech" 45000; Vendor "BadRock Cements" 38000;
                   Vendor "ACC" 42000 ] in
  let banned := [ "badrock cements" ] in
  (forall s, is_ascii s = true -> ascii_lower s = ascii_lower s)
  /\ filter_vendors ascii_lower vendors banned = [ Vendor "UltraTech" 45000; Vendor "ACC" 42000 ]
  /\ Vendor "BadRock Cements" 38000 ∉ filter_vendors ascii_lower vendors banned.
Proof.
  intros vendors banned.
  pose proof (filter_vendors_case_insensitive_subsequence ascii_lower
                (fun s _ => eq_refl) vendors banned) as (Hspec & _ & _ & Hbad).
  split; [reflexivity|]. split.
  - rewrite Hspec. reflexivity.
  - apply Hbad. left.
Defined.

(** ** memory.py *)

(** What one call of [write_site_rules] does to a readable store. *)
Lemma write_site_rules_run (memory : gmap string (gmap string value))
    (vendors : option (list vendor)) (site : string) (rules : gmap string value) :
  write_site_rules site rules {| memory_json := Some memory; mock_vendors_json := vendors |}
  = (Ok rules, {| memory_json := Some (<[site := rules]> memory);
                  mock_vendors_json := vendors |}).
Proof.
  unfold write_site_rules, mbind, io_bind, _load_memory, _save_memory, lift, getitem.
  cbn. now rewrite lookup_insert_eq.
Qed.

Lemma read_site_rules_run (memory : gmap string (gmap string value))
    (vendors : option (list vendor)) (site : string) :
  read_site_rules site {| memory_json := Some memory; mock_vendors_json := vendors |}
  = (Ok (memory !! site), {| memory_json := Some memory; mock_vendors_json := vendors |}).
Proof. reflexivity. Qed.

(** An unreadable store makes both operations raise and stay as it is. *)
Lemma write_site_rules_unreadable (vendors : option (list vendor))
    (site : string) (rules : gmap string value) :
  write_site_rules site rules {| memory_json := None; mock_vendors_json := vendors |}
  = (Raise FileError, {| memory_json := None; mock_vendors_json := vendors |}).
Proof. reflexivity. Qed.

(** C4.  On a readable store, [write_site_rules site R] returns [R]
    itself, and a [read_site_rules site] that follows immediately
    returns [R] as well.  [R] is any dictionary, in particular one with
    a non-negative approval limit and a list of banned vendors. *)
Theorem write_then_read_round_trip (memory : gmap string (gmap string value))
    (vendors : option (list vendor)) (site : string) (R : gmap string value) :
  exists fs',
    write_site_rules site R {| memory_json := Some memory; mock_vendors_json := vendors |}
    = (Ok R, fs')
    /\ read_site_rules site fs' = (Ok (Some R), fs').
Proof.
  eexists. split.
  - apply write_site_rules_run.
  - rewrite read_site_rules_run. now rewrite lookup_insert_eq.
Qed.

(** C6.  A site that is not in the store and is not the target of any
    of the writes made since is read as [None], a normal result: the
    writes all succeed and the read that follows returns [Ok None]. *)
Theorem read_never_written_site (writes : list (string * gmap string value))
    (memory : gmap string (gmap string value)) (vendors : option (list vendor))
    (site : string) :
  memory !! site = None ->
  site ∉ writes.*1 ->
  exists fs',
    write_all writes {| memory_json := Some memory; mock_vendors_json := vendors |}
    = (Ok tt, fs')
    /\ read_site_rules site fs' = (Ok None, fs').
Proof.
  revert memory.
  induction writes as [|[s rules] writes IH]; intros memory Hnone Hnotin.
  - eexists. split; [reflexivity|]. rewrite read_site_rules_run. now rewrite Hnone.
  - cbn [fmap list_fmap fst] in Hnotin. apply not_elem_of_cons in Hnotin as [Hne Hnotin].
    destruct (IH (<[s := rules]> memory)) as (fs' & Hrun & Hread).
    + rewrite lookup_insert_ne by congruence. exact Hnone.
    + exact Hnotin.
    + exists fs'. split; [|exact Hread].
      cbn [write_all].
      erewrite bind_ok by apply write_site_rules_run. exact Hrun.
Qed.

Lemma read_never_written_site_witness :
  let memory : gmap string (gmap string value) := {[ "Pune" := site_rules 40000 [] ]} in
  let writes := [ ("Pune", site_rules 50000 ["BadRock"]); ("Delhi", site_rules 10 []) ] in
  exists fs',
    write_all writes {| memory_json := Some memory; mock_vendors_json := None |} = (Ok tt, fs')
    /\ read_site_rules "Mumbai" fs' = (Ok None, fs').
Proof.
  intros memory writes.
  apply (read_never_written_site writes memory None "Mumbai").
  - reflexivity.
  - cbn [fmap list_fmap fst writes].
    apply not_elem_of_cons; split; [discriminate|].
    apply not_elem_of_cons; split; [discriminate|].
    apply not_elem_of_nil.
Defined.

(** C9.  Writing the rules of one site does not change what is read for
    another: the result of [read_site_rules s2] is the same in the file
    system left by [write_site_rules s1 R] as in the one before it. *)
Theorem write_preserves_other_sites (fs : files) (s1 s2 : string)
    (R : gmap string value) :
  s1 <> s2 ->
  (read_site_rules s2 (write_site_rules s1 R fs).2).1 = (read_site_rules s2 fs).1.
Proof.
  intros Hne. destruct fs as [[memory|] vendors].
  - rewrite write_site_rules_run. cbn [snd].
    rewrite !read_site_rules_run. cbn [fst].
    now rewrite lookup_insert_ne.
  - reflexivity.
Qed.

Lemma write_preserves_other_sites_witness :
  let fs := {| memory_json := Some {[ "Delhi" := site_rules 10 ["ACC"] ]};
               mock_vendors_json := None |} in
  "Pune" <> "Delhi"
  /\ (read_site_rules "Delhi" (write_site_rules "Pune" (site_rules 40000 []) fs).2).1
     = (Ok (Some (site_rules 10 ["ACC"]))).
Proof.
  intros fs. split; [discriminate|].
  rewrite (write_preserves_other_sites fs "Pune" "Delhi" (site_rules 40000 []));
    [reflexivity|discriminate].
Defined.

(** ** state.py *)

Lemma approve_lookup (d : gmap string value) (k : string) :
  approve d !! k = if decide (k = "status") then Some (VStr "APPROVED") else d !! k.
Proof.
  unfold approve. destruct (decide (k = "status")) as [->|Hk].
  - apply lookup_insert_eq.
  - now rewrite lookup_insert_ne.
Qed.

Lemma reject_lookup (d : gmap string value) (reason : option string) (k : string) :
  reject d reason !! k =
    if decide (k = "rejection_reason")
    then Some (VStr (default "Rejected by manager" reason))
    else if decide (k = "status") then Some (VStr "REJECTED") else d !! k.
Proof.
  unfold reject. cbn zeta.
  destruct (decide (k = "rejection_reason")) as [->|Hr].
  - apply lookup_insert_eq.
  - rewrite lookup_insert_ne by congruence.
    destruct (decide (k = "status")) as [->|Hs].
    + apply lookup_insert_eq.
    + now rewrite lookup_insert_ne.
Qed.

Lemma pause_for_approval_fields (site vendor : string) (cost limit : Z) :
  let d := pause_for_approval site vendor cost limit in
  d !! "status" = Some (VStr "AWAITING_APPROVAL")
  /\ d !! "site" = Some (VStr site)
  /\ d !! "selected_vendor" = Some (VStr vendor)
  /\ d !! "amount" = Some (VInt cost)
  /\ d !! "approval_limit" = Some (VInt limit)
  /\ d !! "reason" = Some (VStr ("Cost ₹" +:+ format_thousands cost +:+
                                 " exceeds site approval limit of ₹" +:+
                                 format_thousands limit))
  /\ d !! "rejection_reason" = None.
Proof. cbn zeta. unfold pause_for_approval. repeat split. Qed.

(** C8.  Let [d] be the awaiting-approval outcome built by
    [pause_for_approval].  [approve d] carries the tag APPROVED and
    agrees with [d] on every other key, with the same set of keys.
    [reject d reason] carries the tag REJECTED and the given reason
    under "rejection_reason", keeps every other field of [d] with its
    value, and has the keys of [d] plus "rejection_reason".  Leaving the
    reason out is the same as passing "Rejected by manager". *)
Theorem approve_reject_awaiting_approval
    (site vendor : string) (cost limit : Z) (reason : string) :
  let d := pause_for_approval site vendor cost limit in
  d !! "status" = Some (VStr "AWAITING_APPROVAL")
  /\ approve d !! "status" = Some (VStr "APPROVED")
  /\ (forall k, k <> "status" -> approve d !! k = d !! k)
  /\ dom (approve d) = dom d
  /\ reject d (Some reason) !! "status" = Some (VStr "REJECTED")
  /\ reject d (Some reason) !! "rejection_reason" = Some (VStr reason)
  /\ (forall k v, k <> "status" -> d !! k = Some v ->
                  reject d (Some reason) !! k = Some v)
  /\ dom (reject d (Some reason)) = dom d ∪ {[ "rejection_reason" ]}
  /\ reject d None = reject d (Some "Rejected by manager").
Proof.
  intros d.
  destruct (pause_for_approval_fields site vendor cost limit)
    as (Hst & _ & _ & _ & _ & _ & Hrr).
  fold d in Hst, Hrr.
  assert (Hdom : "status" ∈ dom d) by (apply elem_of_dom; eauto).
  split; [exact Hst|].
  split; [now rewrite approve_lookup|].
  split.
  { intros k Hk. rewrite approve_lookup. now destruct (decide (k = "status")). }
  split.
  { unfold approve. rewrite dom_insert_L. set_solver. }
  split; [now rewrite reject_lookup|].
  split; [now rewrite reject_lookup|].
  split.
  { intros k v Hk Hv. rewrite reject_lookup.
    destruct (decide (k = "rejection_reason")) as [->|_]; [congruence|].
    now destruct (decide (k = "status")). }
  split; [|reflexivity].
  unfold reject. cbn zeta. rewrite !dom_insert_L. set_solver.
Qed.

(** C10.  [approve] and [reject] look at no field of their argument.
    For every dictionary [d], whatever its "status" (or without one),
    [approve d] has the tag APPROVED and agrees with [d] on every other
    key; [reject d reason] has the tag REJECTED, the reason under
    "rejection_reason", and agrees with [d] on every other key.  So a
    decision that is already approved or rejected is accepted too, and
    approving a paused outcome keeps its "reason": the text saying that
    the cost exceeds the site approval limit. *)
Theorem approve_reject_any_status (d : gmap string value) (reason : string) :
  approve d !! "status" = Some (VStr "APPROVED")
  /\ (forall k, k <> "status" -> approve d !! k = d !! k)
  /\ reject d (Some reason) !! "status" = Some (VStr "REJECTED")
  /\ reject d (Some reason) !! "rejection_reason" = Some (VStr reason)
  /\ (forall k, k <> "status" -> k <> "rejection_reason" ->
                reject d (Some reason) !! k = d !! k)
  /\ approve (approve d) = approve d
  /\ approve (reject d (Some reason)) !! "rejection_reason" = Some (VStr reason)
  /\ (forall site vendor cost limit,
        approve (pause_for_approval site vendor cost limit) !! "reason"
        = Some (VStr ("Cost ₹" +:+ format_thousands cost +:+
                      " exceeds site approval limit of ₹" +:+
                      format_thousands limit)))
  /\ approve (pause_for_approval "Pune" "UltraTech" 45000 40000) !! "reason"
     = Some (VStr "Cost ₹45,000 exceeds site approval limit of ₹40,000").
Proof.
  split; [now rewrite approve_lookup|].
  split.
  { intros k Hk. rewrite approve_lookup. now destruct (decide (k = "status")). }
  split; [now rewrite reject_lookup|].
  split; [now rewrite reject_lookup|].
  split.
  { intros k Hs Hr. rewrite reject_lookup.
    destruct (decide (k = "rejection_reason")); [contradiction|].
    now destruct (decide (k = "status")). }
  split; [apply insert_insert_eq|].
  split; [now rewrite approve_lookup, reject_lookup|].
  split; [|reflexivity].
  intros site vendor cost limit. rewrite approve_lookup. cbn.
  apply pause_for_approval_fields.
Qed.

(** ** agent.py *)

(** The first turn of the demo: after [store_site_rules] the store holds,
    for the site, the dictionary with the limit and the banned list. *)
Lemma store_site_rules_run (memory : gmap string (gmap string value))
    (vendors : option (list vendor)) (site : string) (approval_limit : Z)
    (banned_vendors : list string) :
  store_site_rules site approval_limit banned_vendors
    {| memory_json := Some memory; mock_vendors_json := vendors |}
  = (Ok {[ "status" := VStr "RULES_STORED";
           "site" := VStr site;
           "rules" := VDict (site_rules approval_limit banned_vendors) ]},
     {| memory_json := Some (<[site := site_rules approval_limit banned_vendors]> memory);
        mock_vendors_json := vendors |}).
Proof.
  unfold store_site_rules.
  now rewrite (bind_ok _ _ _ _ _ (write_site_rules_run memory vendors site _)).
Qed.

(** C3.  The approval gate applied to a vendor of price [cost] and an
    integer limit always returns a decision, which carries the vendor
    name and the limit; when [cost <= limit] (equality included) its tag
    is APPROVED and the cost is under "total_cost"; when [cost > limit]
    its tag is AWAITING_APPROVAL, the cost is under "amount", and it is
    the dictionary built by [pause_for_approval].  No sign condition on
    [cost] or [limit] is needed, so this holds in particular for
    non-negative ones. *)
Theorem approval_gate_outcome (site item vendor : string) (quantity cost limit : Z) :
  exists d,
    approval_gate site item quantity (Vendor vendor cost) (VInt limit) = Ok d
    /\ d !! "selected_vendor" = Some (VStr vendor)
    /\ d !! "approval_limit" = Some (VInt limit)
    /\ ((cost <= limit
         /\ d !! "status" = Some (VStr "APPROVED")
         /\ d !! "total_cost" = Some (VInt cost))
        \/ (cost > limit
            /\ d !! "status" = Some (VStr "AWAITING_APPROVAL")
            /\ d !! "amount" = Some (VInt cost)
            /\ d = pause_for_approval site vendor cost limit)).
Proof.
  unfold approval_gate. cbn [price name].
  destruct (Z.leb_spec cost limit) as [Hle|Hgt]; eexists; (split; [reflexivity|]).
  - split; [reflexivity|]. split; [reflexivity|]. left. now repeat split.
  - split; [reflexivity|]. split; [reflexivity|]. right.
    split; [lia|]. now repeat split.
Qed.

Lemma evaluate_vendors_run (lower : string -> string)
    (memory : option (gmap string (gmap string value)))
    (catalog : list vendor) (banned : list string) :
  let fs := {| memory_json := memory; mock_vendors_json := Some catalog |} in
  evaluate_vendors lower (VList banned) fs
  = (Ok {| all_vendors := catalog;
           valid_vendors := filter_vendors lower catalog banned;
           selected := select_cheapest (filter_vendors lower catalog banned) |}, fs).
Proof. reflexivity. Qed.

Lemma approval_gate_without_order (site item item' : string) (quantity quantity' : Z)
    (v : vendor) (approval_limit : value) :
  without_order (approval_gate site item quantity v approval_limit)
  = without_order (approval_gate site item' quantity' v approval_limit).
Proof.
  unfold approval_gate.
  destruct approval_limit as [limit| | |]; try reflexivity.
  (* once the two keys are deleted the maps no longer mention the order *)
  destruct (price v <=? limit); reflexivity.
Qed.

Lemma process_procurement_without_order (lower : string -> string) (fs : files)
    (site item item' : string) (quantity quantity' : Z) :
  without_order (process_procurement lower site item quantity fs).1
  = without_order (process_procurement lower site item' quantity' fs).1.
Proof.
  destruct fs as [[memory|] catalog]; [|reflexivity].
  unfold process_procurement.
  rewrite !(bind_ok _ _ _ _ _ (read_site_rules_run memory catalog site)).
  destruct (memory !! site) as [rules|]; [|reflexivity].
  cbv beta delta [mbind io_bind lift] iota.
  destruct (getitem rules "approval_limit") as [approval_limit|]; [|reflexivity].
  destruct (evaluate_vendors lower _ _) as [[ev|e] fs']; [|reflexivity].
  destruct (selected ev) as [v|]; [|reflexivity].
  cbn [fst]. apply approval_gate_without_order.
Qed.

(** C1, as the code has it.  With a readable store and catalog,
    [process_procurement] follows the composition rule:
    - a site without stored rules gives an ERROR decision whose reason
      names the site;
    - stored rules with an integer approval limit and a list of banned
      vendors (or none) give, when no catalog vendor survives the
      filter, a REJECTED decision with the reason
      "All vendors are banned. No valid vendor available." and the
      banned list;
    - otherwise they give the result of the approval gate on the
      cheapest surviving vendor and the stored limit;
    - the item and the quantity are only reported: two orders for the
      same site get decisions that differ in at most the fields "item"
      and "quantity". *)
Theorem process_procurement_composition (lower : string -> string)
    (memory : gmap string (gmap string value)) (catalog : list vendor)
    (site item : string) (quantity : Z) :
  let fs := {| memory_json := Some memory; mock_vendors_json := Some catalog |} in
  (memory !! site = None ->
     exists d,
       process_procurement lower site item quantity fs = (Ok d, fs)
       /\ d !! "status" = Some (VStr "ERROR")
       /\ d !! "reason" = Some (VStr ("No rules found for site '" +:+ site +:+
                                      "'. Please set up site rules first.")))
  /\ (forall rules limit banned,
        memory !! site = Some rules ->
        rules !! "approval_limit" = Some (VInt limit) ->
        get_default rules "banned_vendors" (VList []) = VList banned ->
        (filter_vendors lower catalog banned = [] ->
           exists d,
             process_procurement lower site item quantity fs = (Ok d, fs)
             /\ d !! "status" = Some (VStr "REJECTED")
             /\ d !! "reason"
                = Some (VStr "All vendors are banned. No valid vendor available.")
             /\ d !! "banned_vendors" = Some (VList banned))
        /\ (filter_vendors lower catalog banned <> [] ->
              exists v,
                select_cheapest (filter_vendors lower catalog banned) = Some v
                /\ process_procurement lower site item quantity fs
                   = (approval_gate site item quantity v (VInt limit), fs)))
  /\ (forall item' quantity',
        without_order (process_procurement lower site item quantity fs).1
        = without_order (process_procurement lower site item' quantity' fs).1).
Proof.
  intros fs. split; [|split].
  - intros Hnone. unfold process_procurement.
    rewrite (bind_ok _ _ _ _ _ (read_site_rules_run memory (Some catalog) site)).
    rewrite Hnone. eexists. split; [reflexivity|]. now split.
  - intros rules limit banned Hrules Hlimit Hbanned.
    assert (Hrun : process_procurement lower site item quantity fs =
                   (match select_cheapest (filter_vendors lower catalog banned) with
                    | None =>
                        Ok {[ "status" := VStr "REJECTED";
                              "reason" := VStr "All vendors are banned. No valid vendor available.";
                              "banned_vendors" := VList banned ]}
                    | Some v => approval_gate site item quantity v (VInt limit)
                    end, fs)).
    { unfold process_procurement.
      rewrite (bind_ok _ _ _ _ _ (read_site_rules_run memory (Some catalog) site)).
      rewrite Hrules. unfold getitem. rewrite Hlimit, Hbanned.
      cbv beta delta [mbind io_bind lift] iota.
      rewrite (evaluate_vendors_run lower (Some memory) catalog banned).
      cbn [selected].
      now destruct (select_cheapest (filter_vendors lower catalog banned)). }
    split.
    + intros Hempty. rewrite Hrun, Hempty. cbn [select_cheapest].
      eexists. split; [reflexivity|]. now repeat split.
    + intros Hsome. rewrite Hrun.
      destruct (filter_vendors lower catalog banned) as [|first rest]; [contradiction|].
      cbn [select_cheapest]. eexists. split; reflexivity.
  - intros item' quantity'. apply process_procurement_without_order.
Qed.

Lemma process_procurement_composition_witness :
  (* a site without rules *)
  (exists d,
     process_procurement ascii_lower "Mumbai" "cement" 100 (demo_files 40000 [])
     = (Ok d, demo_files 40000 [])
     /\ d !! "reason"
        = Some (VStr "No rules found for site 'Mumbai'. Please set up site rules first."))
  (* every vendor banned, whatever the case of the letters *)
  /\ (exists d,
        process_procurement ascii_lower "Pune" "cement" 100
          (demo_files 40000 ["ultratech"; "BADROCK"; "Acc"])
        = (Ok d, demo_files 40000 ["ultratech"; "BADROCK"; "Acc"])
        /\ d !! "status" = Some (VStr "REJECTED"))
  (* the cheapest surviving vendor is gated *)
  /\ process_procurement ascii_lower "Pune" "cement" 100 (demo_files 40000 ["BadRock"])
     = (Ok (pause_for_approval "Pune" "ACC" 42000 40000), demo_files 40000 ["BadRock"]).
Proof.
  split; [|split].
  - destruct (process_procurement_composition ascii_lower
                {[ "Pune" := site_rules 40000 [] ]} demo_catalog "Mumbai" "cement" 100)
      as (Herr & _ & _).
    destruct (Herr eq_refl) as (d & Hrun & _ & Hreason).
    exists d. split; [exact Hrun|exact Hreason].
  - destruct (process_procurement_composition ascii_lower
                {[ "Pune" := site_rules 40000 ["ultratech"; "BADROCK"; "Acc"] ]}
                demo_catalog "Pune" "cement" 100)
      as (_ & Hrules & _).
    destruct (Hrules _ 40000 ["ultratech"; "BADROCK"; "Acc"] eq_refl eq_refl eq_refl)
      as (Hrej & _).
    destruct (Hrej eq_refl) as (d & Hrun & Hstatus & _).
    exists d. split; [exact Hrun|exact Hstatus].
  - destruct (process_procurement_composition ascii_lower
                {[ "Pune" := site_rules 40000 ["BadRock"] ]}
                demo_catalog "Pune" "cement" 100)
      as (_ & Hrules & _).
    destruct (Hrules _ 40000 ["BadRock"] eq_refl eq_refl eq_refl) as (_ & Hgate).
    destruct Hgate as (v & Hv & Hrun); [discriminate|].
    unfold demo_files. rewrite Hrun. injection Hv as <-. reflexivity.
Defined.

(** The reason of the REJECTED decision is the sentence of the code, not
    the words "all vendors banned". *)
Lemma process_procurement_rejected_reason :
  let fs := demo_files 40000 ["UltraTech"; "BadRock"; "ACC"] in
  (exists d,
     process_procurement ascii_lower "Pune" "cement" 100 fs = (Ok d, fs)
     /\ d !! "status" = Some (VStr "REJECTED")
     /\ d !! "reason" = Some (VStr "All vendors are banned. No valid vendor available."))
  /\ ~ (exists d,
          process_procurement ascii_lower "Pune" "cement" 100 fs = (Ok d, fs)
          /\ d !! "status" = Some (VStr "REJECTED")
          /\ d !! "reason" = Some (VStr "all vendors banned")).
Proof.
  intros fs.
  assert (Hcode : process_procurement ascii_lower "Pune" "cement" 100 fs
                  = (Ok {[ "status" := VStr "REJECTED";
                           "reason" := VStr "All vendors are banned. No valid vendor available.";
                           "banned_vendors" := VList ["UltraTech"; "BadRock"; "ACC"] ]}, fs))
    by reflexivity.
  split.
  - eexists. split; [exact Hcode|]. now split.
  - intros (d & Hrun & _ & Hreason).
    rewrite Hcode in Hrun. injection Hrun as <-. discriminate Hreason.
Qed.

(** * Further properties of the code *)

(** ** memory.py: the store as a whole *)

(** What one call of [write_site_rules] leaves behind, readable store or
    not. *)
Lemma write_site_rules_files (fs : files) (site : string) (rules : gmap string value) :
  (write_site_rules site rules fs).2
  = {| memory_json := insert site rules <$> memory_json fs;
       mock_vendors_json := mock_vendors_json fs |}.
Proof.
  destruct fs as [[memory|] vendors].
  - now rewrite write_site_rules_run.
  - reflexivity.
Qed.

(** X1.  The last write to a site wins: after two writes to the same
    site the read returns the second rules, and the file system is the
    one the second write alone would have left. *)
Theorem write_site_rules_overwrites (memory : gmap string (gmap string value))
    (vendors : option (list vendor)) (site : string) (R1 R2 : gmap string value) :
  let fs := {| memory_json := Some memory; mock_vendors_json := vendors |} in
  exists fs1 fs2,
    write_site_rules site R1 fs = (Ok R1, fs1)
    /\ write_site_rules site R2 fs1 = (Ok R2, fs2)
    /\ read_site_rules site fs2 = (Ok (Some R2), fs2)
    /\ write_site_rules site R2 fs = (Ok R2, fs2).
Proof.
  intros fs. do 2 eexists. split; [apply write_site_rules_run|].
  split; [apply write_site_rules_run|].
  rewrite insert_insert_eq. split.
  - rewrite read_site_rules_run. now rewrite lookup_insert_eq.
  - apply write_site_rules_run.
Qed.



(** X3.  No function creates a missing store.  When [memory.json] cannot
    be loaded, [write_site_rules], [read_site_rules], [store_site_rules]
    and [process_procurement] all raise the load error, and the file
    system stays as it was (in particular nothing is written). *)
Theorem unreadable_store_raises (lower : string -> string)
    (vendors : option (list vendor)) (site item : string) (quantity limit : Z)
    (rules : gmap string value) (banned : list string) :
  let fs := {| memory_json := None; mock_vendors_json := vendors |} in
  write_site_rules site rules fs = (Raise FileError, fs)
  /\ read_site_rules site fs = (Raise FileError, fs)
  /\ store_site_rules site limit banned fs = (Raise FileError, fs)
  /\ process_procurement lower site item quantity fs = (Raise FileError, fs).
Proof. now repeat split. Qed.

Lemma evaluate_vendors_files (lower : string -> string) (banned : value) (fs : files) :
  (evaluate_vendors lower banned fs).2 = fs.
Proof.
  unfold evaluate_vendors, mbind, io_bind, load_vendors, lift, mret, io_ret.
  destruct (mock_vendors_json fs); [|reflexivity].
  now destruct (iter_strings banned).
Qed.

(** X4.  The queries never write: whatever the file system and the
    arguments, and whether they return or raise, [read_site_rules],
    [load_vendors], [evaluate_vendors] and [process_procurement] leave
    the file system as they found it. *)
Theorem queries_leave_files_unchanged (lower : string -> string) (fs : files)
    (site item : string) (quantity : Z) (banned : value) :
  (read_site_rules site fs).2 = fs
  /\ (load_vendors fs).2 = fs
  /\ (evaluate_vendors lower banned fs).2 = fs
  /\ (process_procurement lower site item quantity fs).2 = fs.
Proof.
  split; [|split; [|split]].
  - unfold read_site_rules, mbind, io_bind, _load_memory.
    now destruct (memory_json fs).
  - unfold load_vendors. now destruct (mock_vendors_json fs).
  - apply evaluate_vendors_files.
  - destruct fs as [[memory|] vendors]; [|reflexivity].
    unfold process_procurement.
    rewrite (bind_ok _ _ _ _ _ (read_site_rules_run memory vendors site)).
    destruct (memory !! site) as [rules|]; [|reflexivity].
    cbv beta delta [mbind io_bind lift] iota.
    destruct (getitem rules "approval_limit") as [limit|]; [|reflexivity].
    pose proof (evaluate_vendors_files lower
                  (get_default rules "banned_vendors" (VList []))
                  {| memory_json := Some memory; mock_vendors_json := vendors |}) as Hev.
    destruct (evaluate_vendors lower _ _) as [[ev|e] fs']; cbn [snd] in Hev; subst fs';
      [|reflexivity].
    now destruct (selected ev).
Qed.

(** X5.  Storing rules does not touch the catalog: after
    [write_site_rules] or [store_site_rules], readable store or not, the
    vendor evaluation gives the result it gave before. *)
Theorem writes_leave_catalog_unchanged (lower : string -> string) (fs : files)
    (site : string) (rules : gmap string value) (limit : Z) (banned : list string)
    (b : value) :
  mock_vendors_json (write_site_rules site rules fs).2 = mock_vendors_json fs
  /\ mock_vendors_json (store_site_rules site limit banned fs).2 = mock_vendors_json fs
  /\ (evaluate_vendors lower b (write_site_rules site rules fs).2).1
     = (evaluate_vendors lower b fs).1
  /\ (evaluate_vendors lower b (store_site_rules site limit banned fs).2).1
     = (evaluate_vendors lower b fs).1.
Proof.
  assert (Hstore : mock_vendors_json (store_site_rules site limit banned fs).2
                   = mock_vendors_json fs).
  { destruct fs as [[memory|] vendors]; [|reflexivity].
    now rewrite store_site_rules_run. }
  assert (Hev : forall fs1 fs2, mock_vendors_json fs1 = mock_vendors_json fs2 ->
                  (evaluate_vendors lower b fs1).1 = (evaluate_vendors lower b fs2).1).
  { intros fs1 fs2 Heq.
    unfold evaluate_vendors, mbind, io_bind, load_vendors, lift, mret, io_ret.
    rewrite Heq. destruct (mock_vendors_json fs2); [|reflexivity].
    now destruct (iter_strings b). }
  split; [now rewrite write_site_rules_files|].
  split; [exact Hstore|].
  split; apply Hev; [now rewrite write_site_rules_files|exact Hstore].
Qed.

(** ** tools.py: filtering and selection together *)

(** A selected vendor is a cheapest vendor of the list. *)
Lemma select_cheapest_Some (vendors : list vendor) (c : vendor) :
  select_cheapest vendors = Some c ->
  c ∈ vendors /\ forall w, w ∈ vendors -> price c <= price w.
Proof.
  destruct vendors as [|first rest]; [discriminate|].
  cbn [select_cheapest]. intros [= <-].
  destruct (min_by_key_scan price rest [] [] first) as (pre & post & Heq & H1 & H2);
    [constructor|constructor|].
  cbn [app] in Heq. rewrite Heq. split.
  - apply elem_of_app. right. left.
  - intros w Hw. apply elem_of_app in Hw as [Hw|Hw].
    + rewrite Forall_forall in H1. apply H1 in Hw. lia.
    + apply elem_of_cons in Hw as [->|Hw]; [lia|].
      rewrite Forall_forall in H2. now apply H2.
Qed.

Lemma select_cheapest_None (vendors : list vendor) :
  select_cheapest vendors = None <-> vendors = [].
Proof. destruct vendors; split; intros; (reflexivity || discriminate). Qed.

Section MoreFilter.

Variable lower : string -> string.

(** X6.  Bans accumulate and their order does not matter: nothing banned
    keeps the whole list; filtering against two banned lists one after
    the other is filtering against their concatenation, in either
    order. *)
Theorem filter_vendors_banned_lists (vendors : list vendor) (b1 b2 : list string) :
  filter_vendors lower vendors [] = vendors
  /\ filter_vendors lower (filter_vendors lower vendors b1) b2
     = filter_vendors lower vendors (b1 ++ b2)
  /\ filter_vendors lower vendors (b1 ++ b2) = filter_vendors lower vendors (b2 ++ b1).
Proof.
  unfold filter_vendors. cbn zeta. split; [|split].
  - induction vendors as [|v vendors IH]; [reflexivity|].
    rewrite filter_cons_True; [now rewrite IH|]. cbn. apply not_elem_of_nil.
  - rewrite list_filter_filter. apply list_filter_iff. intros v.
    rewrite map_app, elem_of_app. tauto.
  - apply list_filter_iff. intros v. rewrite !map_app, !elem_of_app. tauto.
Qed.

(** X7.  Banning more removes more: when every entry of [banned] is also
    in [banned'], the vendors that survive [banned'] are a subsequence
    of those that survive [banned]. *)
Theorem filter_vendors_more_banned (vendors : list vendor) (banned banned' : list string) :
  (forall b, b ∈ banned -> b ∈ banned') ->
  filter_vendors lower vendors banned' `sublist_of` filter_vendors lower vendors banned.
Proof.
  intros Hsub. unfold filter_vendors. cbn zeta.
  rewrite <- (list_filter_filter_l (fun v => lower (name v) ∉ map lower banned')
                                   (fun v => lower (name v) ∉ map lower banned)).
  - apply sublist_filter.
  - intros v Hv Hin. apply Hv.
    apply list_elem_of_fmap in Hin as (b & Heq & Hb).
    apply list_elem_of_fmap. exists b. split; [exact Heq|]. now apply Hsub.
Qed.

(** X8.  Banning more never makes the order cheaper: if a vendor is
    still selected under the larger banned list, one is selected under
    the smaller list too, at a price that is not higher. *)
Theorem select_cheapest_more_banned (vendors : list vendor)
    (banned banned' : list string) (c' : vendor) :
  (forall b, b ∈ banned -> b ∈ banned') ->
  select_cheapest (filter_vendors lower vendors banned') = Some c' ->
  exists c,
    select_cheapest (filter_vendors lower vendors banned) = Some c
    /\ price c <= price c'.
Proof.
  intros Hsub Hsel'.
  apply select_cheapest_Some in Hsel' as [Hin' _].
  assert (Hin : c' ∈ filter_vendors lower vendors banned).
  { apply filter_vendors_elem. apply filter_vendors_elem in Hin' as [Hv Hn].
    split; [exact Hv|]. intros b Hb. apply Hn. now apply Hsub. }
  destruct (select_cheapest (filter_vendors lower vendors banned)) as [c|] eqn:Hsel.
  - exists c. split; [reflexivity|].
    apply select_cheapest_Some in Hsel as [_ Hmin]. now apply Hmin.
  - apply select_cheapest_None in Hsel. rewrite Hsel in Hin. inversion Hin.
Qed.


(** X10.  The failures of [evaluate_vendors], in the order the code
    meets them: a catalog that cannot be loaded raises the load error
    whatever the banned argument is; with a readable catalog an integer
    in place of the banned list raises [TypeError]; an empty catalog is
    no error and selects nothing. *)
Theorem evaluate_vendors_failures
    (memory : option (gmap string (gmap string value)))
    (catalog : list vendor) (banned : value) (n : Z) (names : list string) :
  evaluate_vendors lower banned {| memory_json := memory; mock_vendors_json := None |}
  = (Raise FileError, {| memory_json := memory; mock_vendors_json := None |})
  /\ evaluate_vendors lower (VInt n)
       {| memory_json := memory; mock_vendors_json := Some catalog |}
     = (Raise TypeError, {| memory_json := memory; mock_vendors_json := Some catalog |})
  /\ evaluate_vendors lower (VList names)
       {| memory_json := memory; mock_vendors_json := Some [] |}
     = (Ok {| all_vendors := []; valid_vendors := []; selected := None |},
        {| memory_json := memory; mock_vendors_json := Some [] |}).
Proof. now repeat split. Qed.

End MoreFilter.

Lemma filter_vendors_more_banned_witness :
  (forall b : string, b ∈ ["BadRock"] -> b ∈ ["ACC"; "BadRock"])
  /\ filter_vendors ascii_lower demo_catalog ["ACC"; "BadRock"]
     `sublist_of` filter_vendors ascii_lower demo_catalog ["BadRock"].
Proof.
  assert (H : forall b : string, b ∈ ["BadRock"] -> b ∈ ["ACC"; "BadRock"]).
  { intros b Hb. apply list_elem_of_singleton in Hb as ->. right. left. }
  split; [exact H|].
  exact (filter_vendors_more_banned ascii_lower demo_catalog _ _ H).
Defined.

Lemma select_cheapest_more_banned_witness :
  exists c,
    select_cheapest (filter_vendors ascii_lower demo_catalog []) = Some c
    /\ price c <= 42000.
Proof.
  apply (select_cheapest_more_banned ascii_lower demo_catalog [] ["BadRock"]
           (Vendor "ACC" 42000)).
  - intros b Hb. inversion Hb.
  - reflexivity.
Defined.

(** ** agent.py: every path of [process_procurement] *)

(** The run of [process_procurement] once the rules of the site are
    found, step by step as in the code. *)
Lemma process_procurement_rules (lower : string -> string)
    (memory : gmap string (gmap string value)) (vendors : option (list vendor))
    (site item : string) (quantity : Z) (rules : gmap string value) :
  let fs := {| memory_json := Some memory; mock_vendors_json := vendors |} in
  memory !! site = Some rules ->
  process_procurement lower site item quantity fs
  = match getitem rules "approval_limit" with
    | Raise e => (Raise e, fs)
    | Ok approval_limit =>
        let banned_vendors := get_default rules "banned_vendors" (VList []) in
        match (evaluate_vendors lower banned_vendors fs).1 with
        | Raise e => (Raise e, fs)
        | Ok ev =>
            match selected ev with
            | None =>
                (Ok {[ "status" := VStr "REJECTED";
                       "reason" := VStr "All vendors are banned. No valid vendor available.";
                       "banned_vendors" := banned_vendors ]}, fs)
            | Some v => (approval_gate site item quantity v approval_limit, fs)
            end
        end
    end.
Proof.
  intros fs Hrules. subst fs. unfold process_procurement.
  rewrite (bind_ok _ _ _ _ _ (read_site_rules_run memory vendors site)).
  rewrite Hrules. cbv beta delta [mbind io_bind lift] iota.
  destruct (getitem rules "approval_limit") as [limit|]; [|reflexivity].
  cbv zeta.
  pose proof (evaluate_vendors_files lower
                (get_default rules "banned_vendors" (VList []))
                {| memory_json := Some memory; mock_vendors_json := vendors |}) as Hev.
  destruct (evaluate_vendors lower _ _) as [[ev|e] fs']; cbn [fst snd] in *; subst fs';
    [|reflexivity].
  now destruct (selected ev).
Qed.




(** X12.  What [process_procurement] raises when a piece is missing,
    for a site whose rules are found.  Rules without "approval_limit"
    raise [KeyError] before the catalog is even opened; with a limit, a
    catalog that cannot be loaded raises the load error; with a limit
    and a readable catalog, an integer stored in place of the banned
    list raises [TypeError].  The files are unchanged in each case. *)
Theorem process_procurement_failures (lower : string -> string)
    (memory : gmap string (gmap string value)) (vendors : option (list vendor))
    (site item : string) (quantity : Z) (rules : gmap string value) :
  let fs := {| memory_json := Some memory; mock_vendors_json := vendors |} in
  memory !! site = Some rules ->
  (rules !! "approval_limit" = None ->
     process_procurement lower site item quantity fs
     = (Raise (KeyError "approval_limit"), fs))
  /\ (is_Some (rules !! "approval_limit") -> vendors = None ->
        process_procurement lower site item quantity fs = (Raise FileError, fs))
  /\ (forall n, is_Some (rules !! "approval_limit") -> is_Some vendors ->
        rules !! "banned_vendors" = Some (VInt n) ->
        process_procurement lower site item quantity fs = (Raise TypeError, fs)).
Proof.
  intros fs Hrules. subst fs.
  rewrite (process_procurement_rules lower memory vendors site item quantity rules Hrules).
  unfold getitem. split; [|split].
  - now intros ->.
  - intros [limit ->] Hv. now rewrite Hv.
  - intros n [limit ->] [catalog Hv] Hb. rewrite Hv.
    unfold get_default. now rewrite Hb.
Qed.

Lemma process_procurement_failures_witness :
  let fs := {| memory_json := Some {[ "Pune" := {[ "banned_vendors" := VList [] ]} ]};
               mock_vendors_json := None |} in
  process_procurement ascii_lower "Pune" "cement" 100 fs
  = (Raise (KeyError "approval_limit"), fs).
Proof.
  intros fs.
  apply (process_procurement_failures ascii_lower
           {[ "Pune" := {[ "banned_vendors" := VList [] ]} ]} None
           "Pune" "cement" 100 {[ "banned_vendors" := VList [] ]});
    reflexivity.
Defined.



(** X14.  Rules stored without a "banned_vendors" key are treated as
    rules that ban nobody: the order gets the answer it would get if the
    key were there with an empty list. *)
Theorem process_procurement_no_banned_key (lower : string -> string)
    (memory : gmap string (gmap string value)) (vendors : option (list vendor))
    (site item : string) (quantity : Z) (rules : gmap string value) :
  rules !! "banned_vendors" = None ->
  (process_procurement lower site item quantity
     {| memory_json := Some (<[site := rules]> memory); mock_vendors_json := vendors |}).1
  = (process_procurement lower site item quantity
       {| memory_json := Some (<[site := <["banned_vendors" := VList []]> rules]> memory);
          mock_vendors_json := vendors |}).1.
Proof.
  intros Hnone.
  rewrite (process_procurement_rules lower _ vendors site item quantity rules
             (lookup_insert_eq _ _ _)).
  rewrite (process_procurement_rules lower _ vendors site item quantity
             (<["banned_vendors" := VList []]> rules) (lookup_insert_eq _ _ _)).
  unfold getitem, get_default.
  rewrite lookup_insert_ne by discriminate. rewrite lookup_insert_eq, Hnone.
  destruct (rules !! "approval_limit") as [limit|]; [|reflexivity].
  cbv zeta.
  assert (Hev : forall m1 m2,
            (evaluate_vendors lower (VList [])
               {| memory_json := m1; mock_vendors_json := vendors |}).1
            = (evaluate_vendors lower (VList [])
                 {| memory_json := m2; mock_vendors_json := vendors |}).1).
  { intros m1 m2. now destruct vendors. }
  rewrite (Hev _ (Some (<[site := <["banned_vendors" := VList []]> rules]> memory))).
  destruct (evaluate_vendors lower _ _).1 as [ev|]; [|reflexivity].
  now destruct (selected ev).
Qed.

Lemma process_procurement_no_banned_key_witness :
  (process_procurement ascii_lower "Pune" "cement" 100
     {| memory_json := Some (<["Pune" := {[ "approval_limit" := VInt 40000 ]}]> ∅);
        mock_vendors_json := Some demo_catalog |}).1
  = Ok {[ "status" := VStr "APPROVED";
          "site" := VStr "Pune";
          "item" := VStr "cement";
          "quantity" := VInt 100;
          "selected_vendor" := VStr "BadRock";
          "total_cost" := VInt 38000;
          "approval_limit" := VInt 40000;
          "reason" := VStr "Cost ₹38,000 is within approval limit of ₹40,000" ]}.
Proof.
  assert (Hnone : ({[ "approval_limit" := VInt 40000 ]} : gmap string value)
                  !! "banned_vendors" = None) by reflexivity.
  rewrite (process_procurement_no_banned_key ascii_lower ∅ (Some demo_catalog)
             "Pune" "cement" 100 _ Hnone).
  reflexivity.
Defined.

Lemma filter_vendors_allowed (lower : string -> string) (catalog : list vendor)
    (banned : list string) (v : vendor) :
  v ∈ filter_vendors lower catalog banned
  <-> v ∈ catalog /\ lower (name v) ∉ map lower banned.
Proof. unfold filter_vendors. cbn zeta. rewrite list_elem_of_filter. tauto. Qed.

(** The run on well-formed rules and a readable catalog. *)
Lemma process_procurement_well_formed (lower : string -> string)
    (memory : gmap string (gmap string value)) (catalog : list vendor)
    (site item : string) (quantity : Z) (rules : gmap string value)
    (limit : Z) (banned : list string) :
  memory !! site = Some rules ->
  rules !! "approval_limit" = Some (VInt limit) ->
  get_default rules "banned_vendors" (VList []) = VList banned ->
  process_procurement lower site item quantity
    {| memory_json := Some memory; mock_vendors_json := Some catalog |}
  = (match select_cheapest (filter_vendors lower catalog banned) with
     | None =>
         Ok {[ "status" := VStr "REJECTED";
               "reason" := VStr "All vendors are banned. No valid vendor available.";
               "banned_vendors" := VList banned ]}
     | Some v => approval_gate site item quantity v (VInt limit)
     end, {| memory_json := Some memory; mock_vendors_json := Some catalog |}).
Proof.
  intros Hrules Hlimit Hbanned.
  rewrite (process_procurement_rules lower memory (Some catalog) site item quantity
             rules Hrules).
  unfold getitem. rewrite Hlimit. cbv zeta. rewrite Hbanned.
  rewrite (evaluate_vendors_run lower (Some memory) catalog banned).
  cbn [fst selected].
  now destruct (select_cheapest (filter_vendors lower catalog banned)).
Qed.

(** X15.  The decision table.  For a site with an integer limit and a
    list of banned names, and a readable catalog, the order is always
    answered, and with [allowed] the catalog vendors whose lower-case
    name is not among the lower-case banned names:
    - REJECTED exactly when no vendor is allowed;
    - APPROVED exactly when some allowed vendor costs at most the limit;
    - AWAITING_APPROVAL exactly when some vendor is allowed and every
      allowed vendor costs more than the limit. *)
Theorem process_procurement_decision_table (lower : string -> string)
    (memory : gmap string (gmap string value)) (catalog : list vendor)
    (site item : string) (quantity : Z) (rules : gmap string value)
    (limit : Z) (banned : list string) :
  let fs := {| memory_json := Some memory; mock_vendors_json := Some catalog |} in
  let allowed v := v ∈ catalog /\ lower (name v) ∉ map lower banned in
  memory !! site = Some rules ->
  rules !! "approval_limit" = Some (VInt limit) ->
  get_default rules "banned_vendors" (VList []) = VList banned ->
  exists d,
    process_procurement lower site item quantity fs = (Ok d, fs)
    /\ (d !! "status" = Some (VStr "REJECTED") <-> forall v, ~ allowed v)
    /\ (d !! "status" = Some (VStr "APPROVED")
        <-> exists v, allowed v /\ price v <= limit)
    /\ (d !! "status" = Some (VStr "AWAITING_APPROVAL")
        <-> (exists v, allowed v) /\ forall v, allowed v -> price v > limit).
Proof.
  intros fs allowed Hrules Hlimit Hbanned. subst fs.
  rewrite (process_procurement_well_formed lower memory catalog site item quantity
             rules limit banned Hrules Hlimit Hbanned).
  assert (Hallowed : forall v, allowed v <-> v ∈ filter_vendors lower catalog banned).
  { intros v. symmetry. apply filter_vendors_allowed. }
  destruct (select_cheapest (filter_vendors lower catalog banned)) as [c|] eqn:Hsel.
  - apply select_cheapest_Some in Hsel as [Hc Hmin].
    apply Hallowed in Hc.
    assert (Hmin' : forall v, allowed v -> price c <= price v).
    { intros v Hv. apply Hmin. now apply Hallowed. }
    unfold approval_gate.
    destruct (Z.leb_spec (price c) limit) as [Hle|Hgt]; eexists; (split; [reflexivity|]).
    + split; [|split].
      * split; [discriminate|]. intros Hno. now destruct (Hno c).
      * split; [eauto|reflexivity].
      * split; [discriminate|]. intros [_ Hall]. specialize (Hall c Hc). lia.
    + split; [|split].
      * split; [discriminate|]. intros Hno. now destruct (Hno c).
      * split; [discriminate|]. intros (v & Hv & Hle). specialize (Hmin' v Hv). lia.
      * split; [|reflexivity]. intros _. split; [eauto|].
        intros v Hv. specialize (Hmin' v Hv). lia.
  - apply select_cheapest_None in Hsel.
    assert (Hno : forall v, ~ allowed v).
    { intros v Hv. apply Hallowed in Hv. rewrite Hsel in Hv. inversion Hv. }
    eexists. split; [reflexivity|]. split; [|split].
    + split; [intros _; exact Hno|reflexivity].
    + split; [discriminate|]. intros (v & Hv & _). now destruct (Hno v).
    + split; [discriminate|]. intros [(v & Hv) _]. now destruct (Hno v).
Qed.

Lemma process_procurement_decision_table_witness :
  exists d,
    process_procurement ascii_lower "Pune" "cement" 100 (demo_files 40000 ["badrock"])
    = (Ok d, demo_files 40000 ["badrock"])
    /\ d !! "status" = Some (VStr "AWAITING_APPROVAL").
Proof.
  assert (H1 : ({[ "Pune" := site_rules 40000 ["badrock"] ]}
                  : gmap string (gmap string value)) !! "Pune"
               = Some (site_rules 40000 ["badrock"])) by reflexivity.
  assert (H2 : site_rules 40000 ["badrock"] !! "approval_limit" = Some (VInt 40000))
    by reflexivity.
  assert (H3 : get_default (site_rules 40000 ["badrock"]) "banned_vendors" (VList [])
               = VList ["badrock"]) by reflexivity.
  destruct (process_procurement_decision_table ascii_lower _ demo_catalog
              "Pune" "cement" 100 _ 40000 ["badrock"] H1 H2 H3)
    as (d & Hrun & _ & _ & Hwait).
  exists d. split; [exact Hrun|].
  apply Hwait. split.
  - exists (Vendor "ACC" 42000). split; [right; right; left|].
    cbn. intros H. apply list_elem_of_singleton in H. discriminate H.
  - intros v [Hv Hn].
    repeat (apply elem_of_cons in Hv as [->|Hv]; [try (cbn; lia)|]).
    + exfalso. apply Hn. left.
    + inversion Hv.
Defined.

(** X16.  The two turns of the demo.  On a readable store and catalog,
    [store_site_rules] confirms the rules it was given and the order
    that follows for that site is answered by a decision that is never
    ERROR, that names no banned vendor (in lower case) but one of the
    catalog, and that is APPROVED only with a cost within the limit just
    stored. *)
Theorem store_then_process (lower : string -> string)
    (memory : gmap string (gmap string value)) (catalog : list vendor)
    (site item : string) (quantity limit : Z) (banned : list string) :
  let fs := {| memory_json := Some memory; mock_vendors_json := Some catalog |} in
  exists conf fs1 d,
    store_site_rules site limit banned fs = (Ok conf, fs1)
    /\ conf !! "status" = Some (VStr "RULES_STORED")
    /\ conf !! "rules" = Some (VDict {[ "approval_limit" := VInt limit;
                                         "banned_vendors" := VList banned ]})
    /\ process_procurement lower site item quantity fs1 = (Ok d, fs1)
    /\ d !! "status" <> Some (VStr "ERROR")
    /\ (forall n, d !! "selected_vendor" = Some (VStr n) ->
          (lower n ∉ map lower banned) /\ exists p, Vendor n p ∈ catalog)
    /\ (d !! "status" = Some (VStr "APPROVED") ->
          exists cost, d !! "total_cost" = Some (VInt cost) /\ cost <= limit).
Proof.
  intros fs. subst fs. do 2 eexists.
  rewrite store_site_rules_run.
  assert (Hlimit : site_rules limit banned !! "approval_limit" = Some (VInt limit))
    by reflexivity.
  assert (Hbanned : get_default (site_rules limit banned) "banned_vendors" (VList [])
                    = VList banned) by reflexivity.
  rewrite (process_procurement_well_formed lower
             (<[site := site_rules limit banned]> memory) catalog site item quantity
             (site_rules limit banned) limit banned
             (lookup_insert_eq _ _ _) Hlimit Hbanned).
  destruct (select_cheapest (filter_vendors lower catalog banned)) as [c|] eqn:Hsel.
  - apply select_cheapest_Some in Hsel as [Hc _].
    apply filter_vendors_allowed in Hc as [Hc Hn]. destruct c as [n p].
    cbn [name] in Hn. unfold approval_gate. cbn [name price].
    destruct (Z.leb_spec p limit) as [Hle|Hgt]; eexists;
      (split; [reflexivity|]); (split; [reflexivity|]); (split; [reflexivity|]);
      (split; [reflexivity|]); (split; [discriminate|]); split.
    + intros n' [= <-]. eauto.
    + intros _. exists p. now split.
    + intros n' [= <-]. eauto.
    + discriminate.
  - eexists. split; [reflexivity|]. split; [reflexivity|]. split; [reflexivity|].
    split; [reflexivity|]. split; [discriminate|]. split; discriminate.
Qed.

(** ** state.py: transitions one after the other *)

(** X17.  The last transition decides the tag, and a rejection reason
    once attached stays: rejecting an approved decision is rejecting the
    original one; a second rejection replaces the reason of the first;
    approving a rejected decision gives the approved decision with the
    rejection reason still in it. *)
Theorem approve_reject_compose (d : gmap string value) (r1 r2 : option string) :
  reject (approve d) r1 = reject d r1
  /\ reject (reject d r1) r2 = reject d r2
  /\ approve (reject d r1)
     = <["rejection_reason" := VStr (default "Rejected by manager" r1)]> (approve d).
Proof.
  unfold approve, reject. cbn zeta. split; [|split].
  - now rewrite insert_insert_eq.
  - rewrite (insert_insert_ne _ "status" "rejection_reason") by discriminate.
    now rewrite !insert_insert_eq.
  - rewrite (insert_insert_ne _ "status" "rejection_reason") by discriminate.
    now rewrite insert_insert_eq.
Qed.

(** ** Orders and the rest of the system *)

(** X18.  The price of the selected vendor does not depend on the order
    of the list: two lists with the same vendors, in any order, give
    selections of the same price (which vendor is named can differ only
    between vendors of that price), and both select nothing together. *)
Theorem select_cheapest_permutation (l1 l2 : list vendor) :
  l1 ≡ₚ l2 ->
  price <$> select_cheapest l1 = price <$> select_cheapest l2.
Proof.
  intros Hperm.
  destruct (select_cheapest l1) as [c1|] eqn:H1;
    destruct (select_cheapest l2) as [c2|] eqn:H2; cbn.
  - apply select_cheapest_Some in H1 as [Hin1 Hmin1].
    apply select_cheapest_Some in H2 as [Hin2 Hmin2].
    f_equal. apply Z.le_antisymm.
    + apply Hmin1. now rewrite Hperm.
    + apply Hmin2. now rewrite <- Hperm.
  - apply select_cheapest_None in H2. subst l2.
    apply Permutation_nil_r in Hperm. subst l1. discriminate H1.
  - apply select_cheapest_None in H1. subst l1.
    apply Permutation_nil_l in Hperm. subst l2. discriminate H2.
  - reflexivity.
Qed.

Lemma select_cheapest_permutation_witness :
  price <$> select_cheapest demo_catalog
  = price <$> select_cheapest [ Vendor "ACC" 42000; Vendor "UltraTech" 45000;
                                Vendor "BadRock" 38000 ].
Proof.
  apply select_cheapest_permutation. unfold demo_catalog.
  etransitivity; [apply Permutation_swap|].
  etransitivity; [apply Permutation_skip, Permutation_swap|].
  etransitivity; [apply Permutation_swap|].
  etransitivity; [apply Permutation_skip, Permutation_swap|].
  reflexivity.
Defined.

(** The answer to an order depends on the store only through the rules
    of the site of the order. *)
Lemma process_procurement_store_ext (lower : string -> string)
    (m1 m2 : gmap string (gmap string value)) (vendors : option (list vendor))
    (site item : string) (quantity : Z) :
  m1 !! site = m2 !! site ->
  (process_procurement lower site item quantity
     {| memory_json := Some m1; mock_vendors_json := vendors |}).1
  = (process_procurement lower site item quantity
       {| memory_json := Some m2; mock_vendors_json := vendors |}).1.
Proof.
  intros Heq. destruct (m2 !! site) as [rules|] eqn:H2.
  - rewrite (process_procurement_rules lower m1 vendors site item quantity rules Heq).
    rewrite (process_procurement_rules lower m2 vendors site item quantity rules H2).
    destruct (getitem rules "approval_limit") as [limit|]; [|reflexivity].
    cbv zeta.
    assert (Hev : forall b,
              (evaluate_vendors lower b
                 {| memory_json := Some m1; mock_vendors_json := vendors |}).1
              = (evaluate_vendors lower b
                   {| memory_json := Some m2; mock_vendors_json := vendors |}).1).
    { intros b. destruct vendors; [|reflexivity].
      unfold evaluate_vendors, mbind, io_bind, load_vendors, lift. cbn.
      now destruct (iter_strings b). }
    rewrite Hev. destruct (evaluate_vendors lower _ _).1 as [ev|]; [|reflexivity].
    now destruct (selected ev).
  - unfold process_procurement.
    rewrite !(bind_ok _ _ _ _ _ (read_site_rules_run _ vendors site)).
    now rewrite Heq, H2.
Qed.

(** X19.  Sites are isolated: storing or overwriting the rules of one
    site does not change the answer to an order for another site,
    whether that answer is a decision or an exception. *)
Theorem process_procurement_other_site (lower : string -> string) (fs : files)
    (s1 : string) (R : gmap string value) (site item : string) (quantity : Z) :
  s1 <> site ->
  (process_procurement lower site item quantity (write_site_rules s1 R fs).2).1
  = (process_procurement lower site item quantity fs).1.
Proof.
  intros Hne. destruct fs as [[memory|] vendors]; [|reflexivity].
  rewrite write_site_rules_run. cbn [snd].
  apply process_procurement_store_ext. now apply lookup_insert_ne.
Qed.

Lemma process_procurement_other_site_witness :
  "Delhi" <> "Pune"
  /\ (process_procurement ascii_lower "Pune" "cement" 100
        (write_site_rules "Delhi" (site_rules 10 ["ACC"]) (demo_files 50000 [])).2).1
     = Ok {[ "status" := VStr "APPROVED";
             "site" := VStr "Pune";
             "item" := VStr "cement";
             "quantity" := VInt 100;
             "selected_vendor" := VStr "BadRock";
             "total_cost" := VInt 38000;
             "approval_limit" := VInt 50000;
             "reason" := VStr "Cost ₹38,000 is within approval limit of ₹50,000" ]}.
Proof.
  split; [discriminate|].
  rewrite (process_procurement_other_site ascii_lower (demo_files 50000 [])
             "Delhi" (site_rules 10 ["ACC"]) "Pune" "cement" 100); [reflexivity|discriminate].
Defined.
